(** * A shallow embedding of the greeting service [src/app.py]

    The program is a Flask application with two view functions, [hello]
    (route [/]) and [health] (route [/health]), and a start-up block that
    runs the development server on [0.0.0.0:8080].

    The Python and framework operations the program calls are embedded as
    executable definitions:
    - Python [str] values are sequences of code points;
    - [os.getenv] is a read of the process environment;
    - [jsonify] serialises a dictionary the way Flask's default JSON
      provider does outside debug mode (sorted keys, ASCII-only output,
      compact separators, a final newline);
    - URL dispatch follows Werkzeug's matcher on the rules the
      application holds: the two routes and the rule of static files
      that [Flask(__name__)] registers.

    Stateful code is written in a state-and-exception monad over the
    process [World]. The two tests of [tests/test_app.py] are embedded
    as functions from the world to the outcome of the test. *)

From Stdlib Require Import ZArith NArith Ascii String.
From stdpp Require Import gmap list strings.

Local Open Scope N_scope.

(** ** Python strings *)

(** A Python [str]: a sequence of Unicode code points. *)
Abbreviation pystr := (list N).

(** The [str] written by an ASCII literal of the source. *)
Definition lit (s : string) : pystr :=
  map N_of_ascii (list_ascii_of_string s).

Module Str.

(** [c.upper()] on one ASCII letter; other code points are kept. *)
Definition upper_char (c : N) : N :=
  if (97 <=? c) && (c <=? 122) then c - 32 else c.

(** [s.upper()], for the ASCII tokens that HTTP methods are. *)
Definition upper (s : pystr) : pystr := map upper_char s.

(** [s.lstrip("/")]. *)
Fixpoint lstrip_slash (s : pystr) : pystr :=
  match s with
  | c :: s' => if c =? 47 then lstrip_slash s' else s
  | [] => []
  end.

(** Code-point-wise lexicographic [a <= b], the order of [sorted]. *)
Fixpoint leb (a b : pystr) : bool :=
  match a, b with
  | [], _ => true
  | _ :: _, [] => false
  | x :: a', y :: b' => (x <? y) || ((x =? y) && leb a' b')
  end.

End Str.

(** ** Python values that reach the JSON encoder *)

Inductive pyval : Type :=
| PyNone
| PyStr (s : pystr).

(** A dictionary with [str] keys, in insertion order. *)
Abbreviation pydict := (list (pystr * pyval)).

(** ** The process state and the effect monad *)

(** What a request handler can observe or change: the process environment
    ([os.environ]) and the output the process has written besides HTTP
    responses (log lines, files, sockets). *)
Record World : Type := mkWorld {
  environ : gmap pystr pystr;
  output : list pystr
}.

(** Exceptions raised while a request is routed. *)
Inductive exn : Type :=
| NotFound
| MethodNotAllowed (valid_methods : gset pystr)
| RequestRedirect (new_path : pystr).

Inductive Result (A : Type) : Type :=
| Ok (a : A)
| Raise (e : exn).
Arguments Ok {A} a.
Arguments Raise {A} e.

(** A computation that reads and writes the [World] and may raise. *)
Definition M (A : Type) : Type := World -> Result A * World.

Definition ret {A} (a : A) : M A := fun w => (Ok a, w).

Definition bind {A B} (c : M A) (k : A -> M B) : M B :=
  fun w =>
    match c w with
    | (Ok a, w') => k a w'
    | (Raise e, w') => (Raise e, w')
    end.

Definition raise {A} (e : exn) : M A := fun w => (Raise e, w).

(** [try: c except e: h e]. *)
Definition catch {A} (c : M A) (h : exn -> M A) : M A :=
  fun w =>
    match c w with
    | (Ok a, w') => (Ok a, w')
    | (Raise e, w') => h e w'
    end.

#[global] Instance M_ret : MRet M := @ret.
#[global] Instance M_bind : MBind M := fun A B k c => bind c k.

Module Os.

(** [os.getenv(key, default)]: [os.environ.get(key, default)]. *)
Definition getenv (key : pystr) (default : pyval) : M pyval :=
  fun w =>
    (Ok (match environ w !! key with
         | Some v => PyStr v
         | None => default
         end), w).

(** [os.putenv]/[os.environ[key] = value]: the write the handlers never
    perform. *)
Definition putenv (key value : pystr) : M unit :=
  fun w => (Ok tt, mkWorld (<[key := value]> (environ w)) (output w)).

End Os.

(** ** JSON encoding *)

Module Json.

(** One lower-case hexadecimal digit. *)
Definition hex_digit (d : N) : N :=
  if d <? 10 then 48 + d else 87 + d.

(** ['\\u{0:04x}'.format(n)]. *)
Definition u_escape (n : N) : pystr :=
  [92; 117;
   hex_digit (n / 4096 mod 16); hex_digit (n / 256 mod 16);
   hex_digit (n / 16 mod 16); hex_digit (n mod 16)].

(** The replacement of one code point by [encode_basestring_ascii]:
    the short escapes, printable ASCII unchanged, [\uXXXX] otherwise,
    a surrogate pair above the basic plane. *)
Definition escape_char (c : N) : pystr :=
  if c =? 34 then [92; 34]
  else if c =? 92 then [92; 92]
  else if c =? 8 then [92; 98]
  else if c =? 12 then [92; 102]
  else if c =? 10 then [92; 110]
  else if c =? 13 then [92; 114]
  else if c =? 9 then [92; 116]
  else if (32 <=? c) && (c <=? 126) then [c]
  else if c <? 65536 then u_escape c
  else
    let n := c - 65536 in
    u_escape (N.lor 55296 (N.land (N.shiftr n 10) 1023))
    ++ u_escape (N.lor 56320 (N.land n 1023)).

Definition encode_basestring_ascii (s : pystr) : pystr :=
  [34] ++ flat_map escape_char s ++ [34].

Definition encode_value (v : pyval) : pystr :=
  match v with
  | PyNone => lit "null"
  | PyStr s => encode_basestring_ascii s
  end.

(** [sorted(d.items())], by insertion. *)
Fixpoint insert_item (kv : pystr * pyval) (l : pydict) : pydict :=
  match l with
  | [] => [kv]
  | kv' :: l' =>
      if Str.leb (fst kv) (fst kv') then kv :: l
      else kv' :: insert_item kv l'
  end.

Definition sorted_items (d : pydict) : pydict :=
  foldr insert_item [] d.

Definition encode_item (kv : pystr * pyval) : pystr :=
  encode_basestring_ascii (fst kv) ++ [58] ++ encode_value (snd kv).

Fixpoint join_items (l : list pystr) : pystr :=
  match l with
  | [] => []
  | [x] => x
  | x :: l' => x ++ [44] ++ join_items l'
  end.

(** [json.dumps(d, sort_keys=True, ensure_ascii=True,
    separators=(",", ":"))]. *)
Definition dumps (d : pydict) : pystr :=
  [123] ++ join_items (map encode_item (sorted_items d)) ++ [125].

(** The items of an indented object, one to a line: between two items a
    comma, a newline and the two spaces of the indentation. *)
Fixpoint join_lines (l : list pystr) : pystr :=
  match l with
  | [] => []
  | [x] => x
  | x :: l' => x ++ [44; 10; 32; 32] ++ join_lines l'
  end.

Definition encode_item_indent (kv : pystr * pyval) : pystr :=
  encode_basestring_ascii (fst kv) ++ [58; 32] ++ encode_value (snd kv).

(** [json.dumps(d, sort_keys=True, ensure_ascii=True, indent=2)], the
    layout [jsonify] uses when the application runs in debug mode. *)
Definition dumps_indent (d : pydict) : pystr :=
  match sorted_items d with
  | [] => [123; 125]
  | items =>
      [123; 10; 32; 32] ++ join_lines (map encode_item_indent items)
      ++ [10; 125]
  end.

End Json.

(** ** The web framework *)

(** A response object: status code, media type and body. *)
Record Response : Type := mkResponse {
  status_code : Z;
  mimetype : pystr;
  data : pystr
}.

(** What a view function may return: a response, or a pair of a response
    and a status code. *)
Inductive view_rv : Type :=
| RvResponse (r : Response)
| RvTuple (r : Response) (status : Z).

(** A request as the application sees it: [REQUEST_METHOD] and
    [PATH_INFO] of the WSGI environment. *)
Record Request : Type := mkRequest {
  request_method : pystr;
  path_info : pystr
}.

(** The answer to one request: the response built from a view's return
    value, or the error page of an HTTP exception. *)
Inductive Reply : Type :=
| Served (r : Response)
| Aborted (e : exn).

Module Flask.

(** [jsonify(d)]: a response of status 200 and type [application/json]
    whose body is the encoded dictionary and a newline. *)
Definition jsonify (d : pydict) : M Response :=
  mret (mkResponse 200%Z (lit "application/json") (Json.dumps d ++ [10])).

(** A URL rule: the path it matches, the methods it accepts and the
    endpoint it names. *)
Record Rule : Type := mkRule {
  rule : pystr;
  methods : gset pystr;
  endpoint : pystr
}.

(** The application object: its URL map and its table of view
    functions, keyed by endpoint. *)
Record App : Type := mkApp {
  url_map : list Rule;
  view_functions : gmap pystr (M view_rv)
}.

(** The view of the [static] endpoint, [send_static_file]: it looks the
    requested file up in the folder [static] beside the module. The
    repository has no such folder, so no file is found. *)
Definition send_static_file : M view_rv := raise NotFound.

(** [Flask(__name__)]: the application starts with the rule of its
    static files, [/static/<path:filename>], which accepts GET, OPTIONS
    and HEAD like every rule registered without methods. The debug flag
    the constructor reads from the environment is not modelled. *)
Definition new : App :=
  let ms : gset pystr := {[lit "GET"]} ∪ {[lit "OPTIONS"]} ∪ {[lit "HEAD"]} in
  mkApp [mkRule (lit "/static/<path:filename>") ms (lit "static")]
        {[lit "static" := send_static_file]}.

(** [@app.route(path)] over the function [name]: the rule accepts GET,
    to which the framework adds OPTIONS and HEAD, and is appended to
    the map; the function is stored under its own name. *)
Definition route (path name : pystr) (f : M view_rv) (a : App) : App :=
  let ms : gset pystr := {[lit "GET"]} ∪ {[lit "OPTIONS"]} ∪ {[lit "HEAD"]} in
  mkApp (url_map a ++ [mkRule path ms name])
        (<[name := f]> (view_functions a)).

(** The path handed to the matcher: empty stays empty, otherwise the
    leading slashes are replaced by a single one. *)
Definition path_part (p : pystr) : pystr :=
  match p with
  | [] => []
  | _ => 47 :: Str.lstrip_slash p
  end.

(** The text of a rule up to its first converter, and whether a
    converter follows. *)
Fixpoint split_rule (r : pystr) : pystr * bool :=
  match r with
  | [] => ([], false)
  | c :: r' =>
      if c =? 60 then ([], true)
      else let (pre, conv) := split_rule r' in (c :: pre, conv)
  end.

(** What is left of [s] after the prefix [p]. *)
Fixpoint strip_prefix (p s : pystr) : option pystr :=
  match p, s with
  | [], _ => Some s
  | _ :: _, [] => None
  | x :: p', y :: s' => if x =? y then strip_prefix p' s' else None
  end.

(** Whether a rule matches a path. A rule without converter matches its
    own text. A rule that ends in a path converter, the only converter
    this application's map holds, matches its static text followed by a
    text that is not empty and does not start with a slash. *)
Definition rule_matches (r : Rule) (p : pystr) : bool :=
  let (pre, conv) := split_rule (rule r) in
  if conv then
    match strip_prefix pre p with
    | Some (c :: _) => negb (c =? 47)
    | _ => false
    end
  else bool_decide (p = pre).

(** Whether a rule is the path with one more slash at its end. *)
Definition rule_adds_slash (r : Rule) (p : pystr) : bool :=
  let (pre, conv) := split_rule (rule r) in
  negb conv && bool_decide (pre = p ++ [47]).

(** [re.sub("/{2,}?", "/", path)]: from left to right, each pair of
    slashes becomes one slash. *)
Fixpoint merge_slashes (p : pystr) : pystr :=
  match p with
  | [] => []
  | c :: r =>
      match r with
      | d :: r' =>
          if (c =? 47) && (d =? 47) then 47 :: merge_slashes r'
          else c :: merge_slashes r
      | [] => [c]
      end
  end.

(** One pass of the matcher over the map. *)
Inductive attempt : Type :=
| Matched (r : Rule)
| SlashRequired
| NoMatch (have_match_for : gset pystr).

(** A rule that matches the path and accepts the method wins; failing
    that, a rule that is the path with a final slash and accepts the
    method asks for the slash; otherwise nothing matches, and the
    methods of the rules that matched the path are remembered. *)
Definition try_match (m : list Rule) (meth p : pystr) : attempt :=
  let hits := List.filter (fun r => rule_matches r p) m in
  match List.find (fun r => bool_decide (meth ∈ methods r)) hits with
  | Some r => Matched r
  | None =>
      if existsb (fun r => rule_adds_slash r p
                           && bool_decide (meth ∈ methods r)) m
      then SlashRequired
      else NoMatch (⋃ (map methods hits))
  end.

(** Matching a request against the map. The path is tried as it is; a
    rule that only lacks the final slash redirects to the path with the
    slash. When nothing matches, the path is tried again with its
    slashes merged, and a match then redirects to the merged path. When
    both passes fail, the answer is [MethodNotAllowed] if some rule
    matched a path but not the method, and [NotFound] otherwise. *)
Definition match_request (m : list Rule) (req : Request) : M Rule :=
  let p := path_part (path_info req) in
  let meth := Str.upper (request_method req) in
  match try_match m meth p with
  | Matched r => mret r
  | SlashRequired => raise (RequestRedirect (p ++ [47]))
  | NoMatch have1 =>
      let p' := merge_slashes p in
      match try_match m meth p' with
      | Matched _ => raise (RequestRedirect p')
      | SlashRequired => raise (RequestRedirect (p' ++ [47]))
      | NoMatch have2 =>
          if decide (have1 ∪ have2 = ∅) then raise NotFound
          else raise (MethodNotAllowed (have1 ∪ have2))
      end
  end.

(** The response to an OPTIONS request, built by the framework. *)
Definition make_default_options_response : Response :=
  mkResponse 200%Z (lit "text/html") [].

(** [dispatch_request]: match the request, answer OPTIONS
    automatically, otherwise call the view of the matched endpoint. *)
Definition dispatch_request (a : App) (req : Request) : M view_rv :=
  r ← match_request (url_map a) req;
  if bool_decide (Str.upper (request_method req) = lit "OPTIONS")
  then mret (RvResponse make_default_options_response)
  else
    match view_functions a !! endpoint r with
    | Some f => f
    | None => raise NotFound
    end.

(** [make_response]: a pair sets the status of its response. *)
Definition make_response (rv : view_rv) : Response :=
  match rv with
  | RvResponse r => r
  | RvTuple r st => mkResponse st (mimetype r) (data r)
  end.

(** A request whose method is spelled [HEAD], in these very letters, is
    answered without a body; the method is not put in upper case
    here. *)
Definition finalize (req : Request) (r : Response) : Response :=
  if bool_decide (request_method req = lit "HEAD")
  then mkResponse (status_code r) (mimetype r) []
  else r.

(** [wsgi_app]: dispatch, turn the view's value into a response, and
    turn an HTTP exception into its error page. *)
Definition wsgi_app (a : App) (req : Request) : M Reply :=
  catch
    (rv ← dispatch_request a req;
     mret (Served (finalize req (make_response rv))))
    (fun e => mret (Aborted e)).

(** The listening socket of the development server. *)
Record Server : Type := mkServer {
  bind_host : pystr;
  bind_port : Z;
  served : App
}.

(** [app.run(host, port)]: missing arguments default to the loopback
    address and port 5000. *)
Definition run (a : App) (host : option pystr) (port : option Z) : Server :=
  mkServer (default (lit "127.0.0.1") host) (default 5000%Z port) a.

End Flask.

(** The status line of a reply. *)
Definition reply_status (r : Reply) : Z :=
  match r with
  | Served r => status_code r
  | Aborted NotFound => 404
  | Aborted (MethodNotAllowed _) => 405
  | Aborted (RequestRedirect _) => 308
  end.

(** ** The program *)

(** [hello], lines 7-12. *)
Definition hello : M view_rv :=
  version ← Os.getenv (lit "APP_VERSION") (PyStr (lit "unknown"));
  r ← Flask.jsonify [(lit "message", PyStr (lit "Hello from my app!"));
                     (lit "version", version)];
  mret (RvResponse r).

(** [health], lines 15-16. *)
Definition health : M view_rv :=
  r ← Flask.jsonify [(lit "status", PyStr (lit "healthy"))];
  mret (RvTuple r 200%Z).

(** [app], lines 4, 6 and 14. *)
Definition app : Flask.App :=
  Flask.route (lit "/health") (lit "health") health
    (Flask.route (lit "/") (lit "hello") hello Flask.new).

(** The module body's last statement, lines 18-19: what the process
    starts when the module is loaded under the name [name] with the
    command line [argv]. *)
Definition main (name : pystr) (argv : list pystr) : option Flask.Server :=
  if bool_decide (name = lit "__main__")
  then Some (Flask.run app (Some (lit "0.0.0.0")) (Some 8080%Z))
  else None.

(** A GET request for a path. *)
Definition GET (path : pystr) : Request := mkRequest (lit "GET") path.

(** The status code sent for the outcome of [wsgi_app]; an exception
    that escapes it is answered with 500. *)
Definition status_of (x : Result Reply * World) : Z :=
  match fst x with
  | Ok r => reply_status r
  | Raise _ => 500
  end.

(** The body bytes sent for the outcome of [wsgi_app]. *)
Definition body_of (x : Result Reply * World) : option pystr :=
  match fst x with
  | Ok (Served r) => Some (data r)
  | _ => None
  end.

(** The version [hello] reports in a given world. *)
Definition resolved_version (w : World) : pystr :=
  default (lit "unknown") (environ w !! lit "APP_VERSION").

(** The dictionary [hello] passes to [jsonify] for a version [v]. *)
Definition hello_dict (v : pyval) : pydict :=
  [(lit "message", PyStr (lit "Hello from my app!")); (lit "version", v)].

(** The methods both rules of [app] accept. *)
Definition route_methods : gset pystr :=
  {[lit "GET"]} ∪ {[lit "OPTIONS"]} ∪ {[lit "HEAD"]}.

(** The rule registered for [hello]. *)
Definition root_rule : Flask.Rule :=
  Flask.mkRule (lit "/") route_methods (lit "hello").

(** The rule registered for [health]. *)
Definition health_rule : Flask.Rule :=
  Flask.mkRule (lit "/health") route_methods (lit "health").

(** The text [{"message":"Hello from my app!","version":], which opens
    every body [hello] sends. *)
Definition hello_prefix : pystr :=
  [123; 34] ++ lit "message" ++ [34; 58; 34] ++ lit "Hello from my app!"
  ++ [34; 44; 34] ++ lit "version" ++ [34; 58].

(** The text of the JSON object [hello] sends for a version [v]: the
    prefix, [v] as a JSON string, the closing brace and a newline. *)
Definition hello_body (v : pystr) : pystr :=
  hello_prefix ++ Json.encode_basestring_ascii v ++ [125; 10].

(** The text [{"status":"healthy"}] and a newline. *)
Definition health_body : pystr :=
  [123; 34] ++ lit "status" ++ [34; 58; 34] ++ lit "healthy" ++ [34; 125; 10].

(** ** The test suite, [tests/test_app.py] *)

Module Bytes.

(** [s.startswith(p)]. *)
Fixpoint startswith (p s : pystr) : bool :=
  match p, s with
  | [], _ => true
  | _ :: _, [] => false
  | x :: p', y :: s' => (x =? y) && startswith p' s'
  end.

(** [needle in hay], the containment test on byte strings. *)
Fixpoint contains (needle hay : pystr) : bool :=
  startswith needle hay
  || match hay with
     | [] => false
     | _ :: hay' => contains needle hay'
     end.

End Bytes.

(** ** Vocabulary of the properties *)

(** The rule [Flask(__name__)] registers for static files. *)
Definition static_rule : Flask.Rule :=
  Flask.mkRule (lit "/static/<path:filename>") route_methods (lit "static").

(** A path under the static files' prefix. *)
Definition under_static (p : pystr) : bool :=
  Bytes.startswith (lit "/static/") p.

(** A string a WSGI server can hand to the application: every code
    point is below 256. *)
Definition wsgi_string (s : pystr) : Prop := Forall (fun c => c < 256) s.

#[global] Instance wsgi_string_dec (s : pystr) : Decision (wsgi_string s).
Proof. unfold wsgi_string. apply _. Defined.

(** How a test function ends: it returns, or its [n]-th [assert]
    fails. *)
Inductive test_outcome : Type :=
| Passed
| AssertionFailed (n : nat).

(** [client.get(path)] on the test client of [app]: the status code and
    the body of the answer; an error page's body is not looked at by the
    tests and is left empty. *)
Definition client_get (path : pystr) (w : World) : Z * pystr :=
  match fst (Flask.wsgi_app app (GET path) w) with
  | Ok (Served r) => (status_code r, data r)
  | Ok (Aborted e) => (reply_status (Aborted e), [])
  | Raise _ => (500%Z, [])
  end.

(** [test_hello], lines 10-13. *)
Definition test_hello (w : World) : test_outcome :=
  let response := client_get (lit "/") w in
  if negb (fst response =? 200)%Z then AssertionFailed 1
  else if negb (Bytes.contains (lit "Hello from my app!") (snd response))
       then AssertionFailed 2
       else Passed.

(** [test_health], lines 15-18. *)
Definition test_health (w : World) : test_outcome :=
  let response := client_get (lit "/health") w in
  if negb (fst response =? 200)%Z then AssertionFailed 1
  else if negb (Bytes.contains (lit "healthy") (snd response))
       then AssertionFailed 2
       else Passed.

(** ** Character classes *)

(** A printable ASCII character, space to tilde. *)
Definition printable (c : N) : Prop := 32 ≤ c ∧ c ≤ 126.

#[global] Instance printable_dec (c : N) : Decision (printable c).
Proof. unfold printable. apply _. Defined.

(** A character of an ASCII text: printable, or a newline. *)
Definition ascii_text (c : N) : Prop := printable c ∨ c = 10.

#[global] Instance ascii_text_dec (c : N) : Decision (ascii_text c).
Proof. unfold ascii_text. apply _. Defined.

(** A code point of a decoded environment value: inside the Unicode
    range and not a high surrogate (bytes that are not UTF-8 decode to
    low surrogates only). *)
Definition env_char (c : N) : Prop :=
  c < 1114112 ∧ ¬ (55296 ≤ c ∧ c ≤ 56319).

#[global] Instance env_char_dec (c : N) : Decision (env_char c).
Proof. unfold env_char. apply _. Defined.

(** ** Reading an escaped character back

    The inverse of [Json.escape_char], used to show that the encoding
    loses nothing. *)

Module Unescape.

(** The value of a lower-case hexadecimal digit. *)
Definition unhex (d : N) : N := if d <? 58 then d - 48 else d - 87.

(** The number written by four hexadecimal digits. *)
Definition read4 (a b c d : N) : N :=
  4096 * unhex a + 256 * unhex b + 16 * unhex c + unhex d.

(** The first character of an escaped text and the text after it;
    nothing at a closing quote or a malformed escape. A [\u] escape of a
    high surrogate is read together with the escape that follows. *)
Definition head (s : pystr) : option (N * pystr) :=
  match s with
  | [] => None
  | x :: r =>
      if x =? 34 then None
      else if x =? 92 then
        match r with
        | [] => None
        | y :: r1 =>
            if y =? 34 then Some (34, r1)
            else if y =? 92 then Some (92, r1)
            else if y =? 98 then Some (8, r1)
            else if y =? 102 then Some (12, r1)
            else if y =? 110 then Some (10, r1)
            else if y =? 114 then Some (13, r1)
            else if y =? 116 then Some (9, r1)
            else if y =? 117 then
              match r1 with
              | a :: b :: c :: d :: r2 =>
                  let n := read4 a b c d in
                  if (55296 <=? n) && (n <=? 56319) then
                    match r2 with
                    | _ :: _ :: a' :: b' :: c' :: d' :: r3 =>
                        Some (65536 + (n - 55296) * 1024
                              + (read4 a' b' c' d' - 56320), r3)
                    | _ => None
                    end
                  else Some (n, r2)
              | _ => None
              end
            else None
        end
      else Some (x, r)
  end.

End Unescape.

(** * Properties *)

(** ** The view functions *)

Lemma getenv_str key d w :
  Os.getenv key (PyStr d) w = (Ok (PyStr (default d (environ w !! key))), w).
Proof. unfold Os.getenv. by destruct (environ w !! key). Qed.

Lemma hello_run w :
  hello w =
  (Ok (RvResponse (mkResponse 200 (lit "application/json")
                     (Json.dumps (hello_dict (PyStr (resolved_version w))) ++ [10]))),
   w).
Proof.
  unfold hello, resolved_version, mbind, M_bind, bind.
  by rewrite getenv_str.
Qed.

Lemma health_run w :
  health w =
  (Ok (RvTuple (mkResponse 200 (lit "application/json")
                  (Json.dumps [(lit "status", PyStr (lit "healthy"))] ++ [10]))
         200),
   w).
Proof. reflexivity. Qed.

(** ** The application object *)

Lemma app_url_map :
  Flask.url_map app = [static_rule; root_rule; health_rule].
Proof. reflexivity. Qed.

Lemma app_view_hello : Flask.view_functions app !! lit "hello" = Some hello.
Proof. reflexivity. Qed.

Lemma app_view_health : Flask.view_functions app !! lit "health" = Some health.
Proof. reflexivity. Qed.

(** ** The three rules *)

Lemma strip_prefix_startswith (pre p : pystr) :
  Bytes.startswith pre p = false → Flask.strip_prefix pre p = None.
Proof.
  revert p. induction pre as [|x pre IH]; intros [|y p] H;
    try discriminate; [reflexivity|].
  cbn in H |- *. destruct (x =? y); [by apply IH|reflexivity].
Qed.

Lemma matches_root (p : pystr) :
  Flask.rule_matches root_rule p = bool_decide (p = lit "/").
Proof. reflexivity. Qed.

Lemma matches_health (p : pystr) :
  Flask.rule_matches health_rule p = bool_decide (p = lit "/health").
Proof. reflexivity. Qed.

Lemma matches_static (p : pystr) :
  under_static p = false → Flask.rule_matches static_rule p = false.
Proof.
  intros H.
  change (Flask.rule_matches static_rule p)
    with (match Flask.strip_prefix (lit "/static/") p with
          | Some (c :: _) => negb (c =? 47)
          | _ => false
          end).
  by rewrite strip_prefix_startswith.
Qed.

Lemma adds_slash_static (p : pystr) : Flask.rule_adds_slash static_rule p = false.
Proof. reflexivity. Qed.

Lemma adds_slash_root (p : pystr) :
  Flask.rule_adds_slash root_rule p = bool_decide (p = []).
Proof.
  change (Flask.rule_adds_slash root_rule p)
    with (bool_decide (lit "/" = p ++ [47])).
  apply bool_decide_ext. split.
  - intros H. destruct p as [|c p]; [reflexivity|].
    injection H as _ H. by destruct p.
  - by intros ->.
Qed.

Lemma adds_slash_health (p : pystr) :
  Flask.rule_adds_slash health_rule p = false.
Proof.
  change (Flask.rule_adds_slash health_rule p)
    with (bool_decide (lit "/health" = p ++ [47])).
  apply bool_decide_eq_false_2. intros H.
  apply (f_equal last) in H. rewrite last_snoc in H. discriminate H.
Qed.

(** One pass of the matcher over the rules of [app], for a path that is
    not under [/static/]. *)
Lemma try_match_app (meth p : pystr) :
  under_static p = false →
  Flask.try_match (Flask.url_map app) meth p =
  if decide (p = lit "/") then
    if bool_decide (meth ∈ route_methods)
    then Flask.Matched root_rule else Flask.NoMatch (⋃ [route_methods])
  else if decide (p = lit "/health") then
    if bool_decide (meth ∈ route_methods)
    then Flask.Matched health_rule else Flask.NoMatch (⋃ [route_methods])
  else if decide (p = []) then
    if bool_decide (meth ∈ route_methods)
    then Flask.SlashRequired else Flask.NoMatch (⋃ [])
  else Flask.NoMatch (⋃ []).
Proof.
  intros Hs. unfold Flask.try_match. rewrite app_url_map.
  cbn [List.filter existsb].
  rewrite (matches_static p Hs), matches_root, matches_health.
  rewrite adds_slash_static, adds_slash_root, adds_slash_health.
  cbn [andb orb].
  change (Flask.methods root_rule) with route_methods.
  destruct (decide (p = lit "/")) as [->|Hr].
  { rewrite bool_decide_eq_true_2 by reflexivity.
    replace (bool_decide (lit "/" = lit "/health")) with false by reflexivity.
    replace (bool_decide (lit "/" = [])) with false by reflexivity.
    cbn [List.find andb orb map Flask.methods].
    change (Flask.methods root_rule) with route_methods.
    destruct (bool_decide (meth ∈ route_methods)); reflexivity. }
  rewrite (bool_decide_eq_false_2 (p = lit "/")) by exact Hr.
  destruct (decide (p = lit "/health")) as [->|Hh].
  { rewrite bool_decide_eq_true_2 by reflexivity.
    replace (bool_decide (lit "/health" = [])) with false by reflexivity.
    cbn [List.find andb orb map Flask.methods].
    change (Flask.methods health_rule) with route_methods.
    destruct (bool_decide (meth ∈ route_methods)); reflexivity. }
  rewrite (bool_decide_eq_false_2 (p = lit "/health")) by exact Hh.
  cbn [List.find map].
  destruct (decide (p = [])) as [->|Hp].
  - rewrite bool_decide_eq_true_2 by reflexivity. cbn [andb orb].
    destruct (bool_decide (meth ∈ route_methods)); reflexivity.
  - rewrite (bool_decide_eq_false_2 (p = [])) by exact Hp. reflexivity.
Qed.

(** ** Merged slashes *)

Lemma merge_unfold (c d : N) (r : pystr) :
  Flask.merge_slashes (c :: d :: r)
  = if (c =? 47) && (d =? 47) then 47 :: Flask.merge_slashes r
    else c :: Flask.merge_slashes (d :: r).
Proof. reflexivity. Qed.

Lemma merge_cons (c : N) (r : pystr) :
  head r ≠ Some 47 →
  Flask.merge_slashes (c :: r) = c :: Flask.merge_slashes r.
Proof.
  intros H. destruct r as [|d r]; [reflexivity|].
  rewrite merge_unfold.
  destruct (N.eqb_spec d 47) as [->|Hd]; [by destruct H|].
  by rewrite andb_false_r.
Qed.

Lemma merge_cons_ne (c : N) (r : pystr) :
  c ≠ 47 → Flask.merge_slashes (c :: r) = c :: Flask.merge_slashes r.
Proof.
  intros H. destruct r as [|d r]; [reflexivity|].
  rewrite merge_unfold.
  by rewrite (proj2 (N.eqb_neq c 47)) by exact H.
Qed.

Lemma merge_slash_head (r : pystr) :
  ∃ t, Flask.merge_slashes (47 :: r) = 47 :: t.
Proof.
  destruct r as [|d r]; [by eexists|].
  rewrite merge_unfold. destruct ((47 =? 47) && (d =? 47)); by eexists.
Qed.

Lemma merge_slash_free (s r : pystr) :
  Forall (fun c => c ≠ 47) s → Flask.merge_slashes r = s → r = s.
Proof.
  intros Hs. revert r. induction Hs as [|x s Hx _ IH]; intros r H.
  - destruct r as [|c r]; [reflexivity|].
    destruct (decide (c = 47)) as [->|Hc].
    + destruct (merge_slash_head r) as [t Ht]. rewrite Ht in H. discriminate H.
    + rewrite merge_cons_ne in H by exact Hc. discriminate H.
  - destruct r as [|c r]; [discriminate H|].
    destruct (decide (c = 47)) as [->|Hc].
    + destruct (merge_slash_head r) as [t Ht]. rewrite Ht in H.
      injection H as H _. by destruct Hx.
    + rewrite merge_cons_ne in H by exact Hc.
      injection H as -> H. f_equal. by apply IH.
Qed.

Lemma startswith_cons (x c : N) (s r : pystr) :
  Bytes.startswith (x :: s) (c :: r) = (x =? c) && Bytes.startswith s r.
Proof. reflexivity. Qed.

Lemma merge_startswith (s r : pystr) :
  Forall (fun c => c ≠ 47) s →
  Bytes.startswith (s ++ [47]) (Flask.merge_slashes r) = true →
  Bytes.startswith (s ++ [47]) r = true.
Proof.
  intros Hs. revert r. induction Hs as [|x s Hx _ IH]; intros r H.
  - destruct r as [|c r]; [discriminate H|].
    destruct (decide (c = 47)) as [->|Hc]; [reflexivity|].
    rewrite merge_cons_ne in H by exact Hc.
    change ([] ++ [47]) with [47] in H. rewrite startswith_cons in H.
    apply andb_true_iff in H as [H%N.eqb_eq _]. by destruct Hc.
  - destruct r as [|c r]; [discriminate H|].
    change ((x :: s) ++ [47]) with (x :: (s ++ [47])) in *.
    destruct (decide (c = 47)) as [->|Hc].
    + destruct (merge_slash_head r) as [t Ht]. rewrite Ht in H.
      rewrite startswith_cons in H.
      apply andb_true_iff in H as [H%N.eqb_eq _]. by destruct Hx.
    + rewrite merge_cons_ne in H by exact Hc.
      rewrite startswith_cons in H |- *.
      apply andb_true_iff in H as [H1 H2].
      rewrite H1. by apply IH.
Qed.

Lemma lstrip_head (q : pystr) : head (Str.lstrip_slash q) ≠ Some 47.
Proof.
  induction q as [|c q IH]; [discriminate|].
  cbn [Str.lstrip_slash].
  destruct (N.eqb_spec c 47) as [->|Hc]; [exact IH|].
  intros H. injection H as ->. done.
Qed.

(** The paths the matcher is given: empty, or one slash and a text that
    does not start with a slash. *)
Lemma path_part_shape (q : pystr) :
  Flask.path_part q = []
  ∨ ∃ r, Flask.path_part q = 47 :: r ∧ head r ≠ Some 47.
Proof.
  destruct q as [|c q]; [by left|]. right.
  exists (Str.lstrip_slash (c :: q)). split; [reflexivity|apply lstrip_head].
Qed.

Lemma merge_keeps_unrouted (p : pystr) :
  (p = [] ∨ ∃ r, p = 47 :: r ∧ head r ≠ Some 47) →
  under_static p = false →
  p ≠ lit "/" → p ≠ lit "/health" →
  under_static (Flask.merge_slashes p) = false
  ∧ Flask.merge_slashes p ≠ lit "/"
  ∧ Flask.merge_slashes p ≠ lit "/health"
  ∧ (Flask.merge_slashes p = [] ↔ p = []).
Proof.
  intros [->|(r & -> & Hr)] Hs Hroot Hhealth.
  { repeat split; done. }
  rewrite merge_cons by exact Hr.
  split; [|split; [|split]].
  - destruct (under_static (47 :: Flask.merge_slashes r)) eqn:E; [|reflexivity].
    rewrite <- Hs. symmetry.
    change (Bytes.startswith (lit "static" ++ [47]) r = true).
    apply merge_startswith; [repeat constructor; discriminate|exact E].
  - intros H. injection H as H. apply Hroot.
    change (47 :: r = 47 :: []). f_equal.
    apply (merge_slash_free [] r); [constructor|exact H].
  - intros H. injection H as H. apply Hhealth.
    change (47 :: r = 47 :: lit "health"). f_equal.
    apply (merge_slash_free (lit "health") r);
      [repeat constructor; discriminate|exact H].
  - split; discriminate.
Qed.

(** ** Matching a request of [app] *)

Lemma have_route_methods :
  ⋃ [route_methods] ∪ ⋃ [route_methods] ≠ (∅ : gset pystr).
Proof.
  intros H.
  assert (Hin : lit "GET" ∈ ⋃ [route_methods] ∪ ⋃ [route_methods]).
  { unfold route_methods. cbn [union_list foldr]. set_solver. }
  rewrite H in Hin. set_solver.
Qed.

Lemma have_nothing : ⋃ [] ∪ ⋃ [] = (∅ : gset pystr).
Proof. cbn [union_list foldr]. set_solver. Qed.

Lemma match_request_app (req : Request) (w : World) :
  under_static (Flask.path_part (path_info req)) = false →
  Flask.match_request (Flask.url_map app) req w =
  if decide (Flask.path_part (path_info req) = lit "/") then
    if bool_decide (Str.upper (request_method req) ∈ route_methods)
    then (Ok root_rule, w)
    else (Raise (MethodNotAllowed (⋃ [route_methods] ∪ ⋃ [route_methods])), w)
  else if decide (Flask.path_part (path_info req) = lit "/health") then
    if bool_decide (Str.upper (request_method req) ∈ route_methods)
    then (Ok health_rule, w)
    else (Raise (MethodNotAllowed (⋃ [route_methods] ∪ ⋃ [route_methods])), w)
  else if decide (path_info req = []) then
    if bool_decide (Str.upper (request_method req) ∈ route_methods)
    then (Raise (RequestRedirect [47]), w)
    else (Raise NotFound, w)
  else (Raise NotFound, w).
Proof.
  destruct req as [m q]. cbn [path_info request_method]. intros Hs.
  unfold Flask.match_request. cbn [path_info request_method].
  rewrite (try_match_app _ _ Hs).
  destruct (decide (Flask.path_part q = lit "/")) as [Hr|Hr].
  { destruct (bool_decide (Str.upper m ∈ route_methods)) eqn:Em; [reflexivity|].
    rewrite Hr.
    change (Flask.merge_slashes (lit "/")) with (lit "/").
    rewrite try_match_app by reflexivity.
    rewrite decide_True by reflexivity.
    rewrite Em.
    rewrite decide_False by apply have_route_methods. reflexivity. }
  destruct (decide (Flask.path_part q = lit "/health")) as [Hh|Hh].
  { destruct (bool_decide (Str.upper m ∈ route_methods)) eqn:Em; [reflexivity|].
    rewrite Hh.
    change (Flask.merge_slashes (lit "/health")) with (lit "/health").
    rewrite try_match_app by reflexivity.
    rewrite decide_False by discriminate.
    rewrite decide_True by reflexivity.
    rewrite Em.
    rewrite decide_False by apply have_route_methods. reflexivity. }
  destruct (merge_keeps_unrouted _ (path_part_shape q) Hs Hr Hh)
    as (Hs' & Hr' & Hh' & He).
  destruct (decide (q = [])) as [->|Hq].
  - cbn [Flask.path_part]. rewrite decide_True by reflexivity.
    destruct (bool_decide (Str.upper m ∈ route_methods)) eqn:Em; [reflexivity|].
    change (Flask.merge_slashes []) with (@nil N).
    rewrite try_match_app by reflexivity.
    rewrite !decide_False by discriminate.
    rewrite decide_True by reflexivity. rewrite Em.
    rewrite decide_True by apply have_nothing. reflexivity.
  - assert (Hp : Flask.path_part q ≠ []) by (by destruct q).
    rewrite decide_False by exact Hp.
    rewrite try_match_app by exact Hs'.
    rewrite decide_False by exact Hr'.
    rewrite decide_False by exact Hh'.
    rewrite decide_False by (intros H; apply Hp; by apply He).
    rewrite decide_True by apply have_nothing. reflexivity.
Qed.

Lemma match_get_root w :
  Flask.match_request (Flask.url_map app) (GET (lit "/")) w = (Ok root_rule, w).
Proof. rewrite match_request_app by reflexivity. reflexivity. Qed.

Lemma match_get_health w :
  Flask.match_request (Flask.url_map app) (GET (lit "/health")) w
  = (Ok health_rule, w).
Proof. rewrite match_request_app by reflexivity. reflexivity. Qed.

Lemma wsgi_get_root w :
  Flask.wsgi_app app (GET (lit "/")) w =
  (Ok (Served (mkResponse 200 (lit "application/json")
                 (Json.dumps (hello_dict (PyStr (resolved_version w))) ++ [10]))),
   w).
Proof.
  unfold Flask.wsgi_app, Flask.dispatch_request, catch, mbind, M_bind, bind.
  rewrite match_get_root.
  replace (bool_decide (Str.upper (request_method (GET (lit "/"))) = lit "OPTIONS"))
    with false by reflexivity.
  change (Flask.endpoint root_rule) with (lit "hello").
  rewrite app_view_hello, hello_run.
  reflexivity.
Qed.

Lemma wsgi_get_health w :
  Flask.wsgi_app app (GET (lit "/health")) w =
  (Ok (Served (mkResponse 200 (lit "application/json")
                 (Json.dumps [(lit "status", PyStr (lit "healthy"))] ++ [10]))),
   w).
Proof.
  unfold Flask.wsgi_app, Flask.dispatch_request, catch, mbind, M_bind, bind.
  rewrite match_get_health.
  replace (bool_decide (Str.upper (request_method (GET (lit "/health")))
                        = lit "OPTIONS"))
    with false by reflexivity.
  change (Flask.endpoint health_rule) with (lit "health").
  rewrite app_view_health, health_run.
  reflexivity.
Qed.

(** ** Matching in general *)

Lemma path_part_cons p : p ≠ [] → Flask.path_part p = 47 :: Str.lstrip_slash p.
Proof. by destruct p. Qed.

Lemma match_unknown_path m p w :
  p ≠ [] →
  under_static (Flask.path_part p) = false →
  Flask.path_part p ≠ lit "/" →
  Flask.path_part p ≠ lit "/health" →
  Flask.match_request (Flask.url_map app) (mkRequest m p) w = (Raise NotFound, w).
Proof.
  intros Hne Hs Hroot Hhealth.
  rewrite match_request_app by exact Hs. cbn [path_info request_method].
  by rewrite !decide_False.
Qed.

Lemma match_wrong_method_root m w :
  Str.upper m ∉ route_methods →
  ∃ ms, Flask.match_request (Flask.url_map app) (mkRequest m (lit "/")) w
        = (Raise (MethodNotAllowed ms), w).
Proof.
  intros Hm. eexists.
  rewrite match_request_app by reflexivity. cbn [path_info request_method].
  rewrite decide_True by reflexivity.
  by rewrite bool_decide_eq_false_2.
Qed.

Lemma match_wrong_method_health m w :
  Str.upper m ∉ route_methods →
  ∃ ms, Flask.match_request (Flask.url_map app) (mkRequest m (lit "/health")) w
        = (Raise (MethodNotAllowed ms), w).
Proof.
  intros Hm. eexists.
  rewrite match_request_app by reflexivity. cbn [path_info request_method].
  rewrite decide_False by discriminate.
  rewrite decide_True by reflexivity.
  by rewrite bool_decide_eq_false_2.
Qed.

Lemma wsgi_of_raise a req e w :
  Flask.match_request (Flask.url_map a) req w = (Raise e, w) →
  Flask.wsgi_app a req w = (Ok (Aborted e), w).
Proof.
  intros H.
  unfold Flask.wsgi_app, Flask.dispatch_request, catch, mbind, M_bind, bind.
  rewrite H. reflexivity.
Qed.

(** ** The endpoints *)

Lemma sorted_hello_dict v : Json.sorted_items (hello_dict v) = hello_dict v.
Proof. reflexivity. Qed.

Lemma dumps_hello_dict (val : pyval) :
  Json.dumps (hello_dict val) = hello_prefix ++ Json.encode_value val ++ [125].
Proof.
  unfold Json.dumps. rewrite sorted_hello_dict.
  unfold hello_prefix, hello_dict.
  cbn [map Json.join_items Json.encode_item fst snd].
  rewrite <- !app_assoc. reflexivity.
Qed.

Lemma dumps_hello v : Json.dumps (hello_dict (PyStr v)) ++ [10] = hello_body v.
Proof.
  rewrite dumps_hello_dict. unfold hello_body. cbn [Json.encode_value].
  rewrite <- !app_assoc. reflexivity.
Qed.

Lemma dumps_string_not_null (v : pystr) :
  Json.dumps (hello_dict (PyStr v)) ≠ Json.dumps (hello_dict PyNone).
Proof.
  rewrite !dumps_hello_dict. intros H.
  apply app_inv_head in H. discriminate H.
Qed.

Lemma dumps_health :
  Json.dumps [(lit "status", PyStr (lit "healthy"))] ++ [10] = health_body.
Proof. reflexivity. Qed.

Lemma get_root_greets_aux (w : World) :
  Flask.wsgi_app app (GET (lit "/")) w =
  (Ok (Served (mkResponse 200 (lit "application/json")
                 (hello_body (match environ w !! lit "APP_VERSION" with
                              | Some v => v
                              | None => lit "unknown"
                              end)))),
   w).
Proof. rewrite wsgi_get_root, dumps_hello. reflexivity. Qed.

(** C1: under every process environment a GET of [/] is answered with
    status 200 and the JSON object of the two string fields [message],
    the literal greeting, and [version], the value of [APP_VERSION] when
    the variable is set and ["unknown"] when it is not. *)
Theorem get_root_greets (w : World) :
  Flask.wsgi_app app (GET (lit "/")) w =
  (Ok (Served (mkResponse 200 (lit "application/json")
                 (hello_body (match environ w !! lit "APP_VERSION" with
                              | Some v => v
                              | None => lit "unknown"
                              end)))),
   w).
Proof. apply get_root_greets_aux. Qed.

(** C2: under every process environment a GET of [/health] is answered
    with status 200 and the body [{"status": "healthy"}]; the view itself
    returns without raising, and neither its result nor the reply depends
    on the world it runs in. *)
Theorem get_health_healthy (w : World) :
  Flask.wsgi_app app (GET (lit "/health")) w =
    (Ok (Served (mkResponse 200 (lit "application/json") health_body)), w)
  ∧ (∃ r, health w = (Ok r, w))
  ∧ (∀ w' : World,
        fst (health w') = fst (health w)
        ∧ fst (Flask.wsgi_app app (GET (lit "/health")) w')
          = fst (Flask.wsgi_app app (GET (lit "/health")) w)).
Proof.
  split; [|split].
  - rewrite wsgi_get_health, dumps_health. reflexivity.
  - eexists. apply health_run.
  - intros w'. split.
    + rewrite !health_run. reflexivity.
    + rewrite !wsgi_get_health. reflexivity.
Qed.

(** C3, as the spec states it, fails: the path [//health] is neither [/]
    nor [/health], and a GET of it is answered by the health view with
    status 200, because the leading slashes of a path are reduced to one
    before the URL map is searched. *)
Lemma unknown_path_not_always_404 :
  ¬ (∀ (w : World) (path : pystr),
        path ≠ lit "/" → path ≠ lit "/health" →
        status_of (Flask.wsgi_app app (GET path) w) = 404%Z).
Proof.
  intros H.
  specialize (H (mkWorld ∅ []) (lit "//health")).
  assert (Hs : status_of (Flask.wsgi_app app (GET (lit "//health")) (mkWorld ∅ []))
               = 200%Z) by (vm_compute; reflexivity).
  rewrite Hs in H.
  assert (200 = 404)%Z as Habs by (apply H; discriminate).
  discriminate Habs.
Qed.

(** C3, amended: under every process environment a GET of a path that
    is a WSGI string, begins with a slash and, with its leading slashes
    reduced to one, is neither [/] nor [/health] and does not begin with
    [/static/] is answered with status 404, a status outside 2xx. *)
Theorem unknown_path_404 (w : World) (path : pystr) :
  wsgi_string path →
  Bytes.startswith [47] path = true →
  Flask.path_part path ≠ lit "/" →
  Flask.path_part path ≠ lit "/health" →
  under_static (Flask.path_part path) = false →
  Flask.wsgi_app app (GET path) w = (Ok (Aborted NotFound), w)
  ∧ status_of (Flask.wsgi_app app (GET path) w) = 404%Z
  ∧ ¬ (200 ≤ status_of (Flask.wsgi_app app (GET path) w) < 300)%Z.
Proof.
  intros _ Hslash Hroot Hhealth Hstatic.
  assert (Hne : path ≠ []) by (intros ->; discriminate Hslash).
  assert (Hr : Flask.wsgi_app app (GET path) w = (Ok (Aborted NotFound), w)).
  { apply wsgi_of_raise. by apply match_unknown_path. }
  rewrite Hr. split; [reflexivity|]. split; [reflexivity|].
  unfold status_of. cbn. lia.
Qed.

Lemma unknown_path_404_witness :
  wsgi_string (lit "/nonexistent")
  ∧ Bytes.startswith [47] (lit "/nonexistent") = true
  ∧ Flask.path_part (lit "/nonexistent") ≠ lit "/"
  ∧ Flask.path_part (lit "/nonexistent") ≠ lit "/health"
  ∧ under_static (Flask.path_part (lit "/nonexistent")) = false
  ∧ Flask.wsgi_app app (GET (lit "/nonexistent")) (mkWorld ∅ [])
    = (Ok (Aborted NotFound), mkWorld ∅ [])
  ∧ status_of (Flask.wsgi_app app (GET (lit "/nonexistent")) (mkWorld ∅ []))
    = 404%Z
  ∧ ¬ (200 ≤ status_of (Flask.wsgi_app app (GET (lit "/nonexistent"))
                          (mkWorld ∅ [])) < 300)%Z.
Proof.
  assert (Hw : wsgi_string (lit "/nonexistent"))
    by (apply (bool_decide_unpack _); vm_compute; exact I).
  split; [exact Hw|].
  split; [reflexivity|].
  split; [vm_compute; discriminate|].
  split; [vm_compute; discriminate|].
  split; [reflexivity|].
  apply (unknown_path_404 (mkWorld ∅ []) (lit "/nonexistent") Hw);
    [reflexivity|vm_compute; discriminate|vm_compute; discriminate|reflexivity].
Defined.

(** Why the amended claim keeps away from [/static/] and from paths
    without a leading slash: the rule of the static files redirects a
    path whose slashes can be merged, and the matcher puts the missing
    slash in front of [health]. *)
Remark static_path_is_redirected :
  status_of (Flask.wsgi_app app (GET (lit "/static//x.css")) (mkWorld ∅ []))
  = 308%Z.
Proof. vm_compute. reflexivity. Qed.

Remark static_rule_methods :
  status_of (Flask.wsgi_app app (mkRequest (lit "OPTIONS") (lit "/static/x.css"))
               (mkWorld ∅ [])) = 200%Z
  ∧ status_of (Flask.wsgi_app app (mkRequest (lit "POST") (lit "/static/x.css"))
                 (mkWorld ∅ [])) = 405%Z.
Proof. split; vm_compute; reflexivity. Qed.

Remark bare_health_is_served :
  status_of (Flask.wsgi_app app (GET (lit "health")) (mkWorld ∅ [])) = 200%Z.
Proof. vm_compute. reflexivity. Qed.

(** C4: with the environment unchanged, two GETs of the same endpoint
    ([/] or [/health]) send the same body bytes; the body is determined
    by the environment alone, whether the second request is served after
    the first in the same process or in any world with that
    environment. *)
Theorem repeated_get_same_body (w w' : World) (path : pystr) :
  path = lit "/" ∨ path = lit "/health" →
  environ w' = environ w →
  is_Some (body_of (Flask.wsgi_app app (GET path) w))
  ∧ body_of (Flask.wsgi_app app (GET path)
               (snd (Flask.wsgi_app app (GET path) w)))
    = body_of (Flask.wsgi_app app (GET path) w)
  ∧ body_of (Flask.wsgi_app app (GET path) w')
    = body_of (Flask.wsgi_app app (GET path) w).
Proof.
  intros [-> | ->] Henv.
  - rewrite !wsgi_get_root. cbn [snd].
    unfold body_of, resolved_version. cbn [fst data]. rewrite Henv.
    split; [by eexists|]. split; reflexivity.
  - rewrite !wsgi_get_health. cbn [snd].
    unfold body_of. cbn [fst data].
    split; [by eexists|]. split; reflexivity.
Qed.

Lemma repeated_get_same_body_witness :
  let w := mkWorld {[lit "APP_VERSION" := lit "1.2.3"]} [] in
  let w' := mkWorld {[lit "APP_VERSION" := lit "1.2.3"]} [lit "a log line"] in
  (lit "/" = lit "/" ∨ lit "/" = lit "/health")
  ∧ environ w' = environ w
  ∧ is_Some (body_of (Flask.wsgi_app app (GET (lit "/")) w))
  ∧ body_of (Flask.wsgi_app app (GET (lit "/"))
               (snd (Flask.wsgi_app app (GET (lit "/")) w)))
    = body_of (Flask.wsgi_app app (GET (lit "/")) w)
  ∧ body_of (Flask.wsgi_app app (GET (lit "/")) w')
    = body_of (Flask.wsgi_app app (GET (lit "/")) w).
Proof.
  intros w w'.
  split; [left; reflexivity|].
  split; [reflexivity|].
  apply (repeated_get_same_body w w' (lit "/")); [left|]; reflexivity.
Defined.

(** C5: when [APP_VERSION] is set to the empty string, a GET of [/] is
    answered with status 200 and a [version] field that is the empty
    string, a body different from the one carrying ["unknown"]. *)
Theorem empty_version_is_reported (w : World) :
  environ w !! lit "APP_VERSION" = Some [] →
  Flask.wsgi_app app (GET (lit "/")) w =
    (Ok (Served (mkResponse 200 (lit "application/json") (hello_body []))), w)
  ∧ hello_body [] ≠ hello_body (lit "unknown").
Proof.
  intros Hset. split.
  - rewrite get_root_greets_aux, Hset. reflexivity.
  - vm_compute. discriminate.
Qed.

Lemma empty_version_is_reported_witness :
  let w := mkWorld {[lit "APP_VERSION" := []]} [] in
  environ w !! lit "APP_VERSION" = Some []
  ∧ Flask.wsgi_app app (GET (lit "/")) w =
      (Ok (Served (mkResponse 200 (lit "application/json") (hello_body []))), w)
  ∧ hello_body [] ≠ hello_body (lit "unknown").
Proof.
  intros w.
  split; [vm_compute; reflexivity|].
  apply (empty_version_is_reported w). vm_compute. reflexivity.
Defined.

(** C6: serving a GET of [/] or of [/health] leaves the world as it was:
    the environment and the output written so far are those from before
    the request, and the view functions themselves change nothing. *)
Theorem get_leaves_world_unchanged (w : World) (path : pystr) :
  path = lit "/" ∨ path = lit "/health" →
  snd (Flask.wsgi_app app (GET path) w) = w
  ∧ snd (hello w) = w
  ∧ snd (health w) = w.
Proof.
  intros Hpath. split; [|split].
  - destruct Hpath as [-> | ->].
    + rewrite wsgi_get_root. reflexivity.
    + rewrite wsgi_get_health. reflexivity.
  - rewrite hello_run. reflexivity.
  - rewrite health_run. reflexivity.
Qed.

Lemma get_leaves_world_unchanged_witness :
  let w := mkWorld {[lit "APP_VERSION" := lit "1.2.3"]} [lit "started"] in
  (lit "/health" = lit "/" ∨ lit "/health" = lit "/health")
  ∧ snd (Flask.wsgi_app app (GET (lit "/health")) w) = w
  ∧ snd (hello w) = w
  ∧ snd (health w) = w.
Proof.
  intros w.
  split; [right; reflexivity|].
  apply (get_leaves_world_unchanged w (lit "/health")). right. reflexivity.
Defined.

(** C7: loaded as the main module, the program starts the server of
    [app] bound to host ["0.0.0.0"], the address of all interfaces, and
    port 8080, whatever the command line holds. *)
Theorem main_listens_on_all_interfaces (argv : list pystr) :
  main (lit "__main__") argv
    = Some (Flask.mkServer (lit "0.0.0.0") 8080 app)
  ∧ (∀ argv' : list pystr,
        main (lit "__main__") argv' = main (lit "__main__") argv).
Proof. split; [reflexivity|]. intros argv'. reflexivity. Qed.

(** C8: in every world both view functions return a response and raise
    nothing; the value [hello] reads for the version is a string, never
    [None], so the body sent carries a JSON string and differs from the
    body that would carry [null]. *)
Theorem views_total_version_string (w : World) :
  (∃ v : pystr,
      Os.getenv (lit "APP_VERSION") (PyStr (lit "unknown")) w = (Ok (PyStr v), w)
      ∧ hello w
        = (Ok (RvResponse (mkResponse 200 (lit "application/json")
                             (Json.dumps (hello_dict (PyStr v)) ++ [10]))), w)
      ∧ Json.dumps (hello_dict (PyStr v)) ≠ Json.dumps (hello_dict PyNone))
  ∧ (∃ r : Response, health w = (Ok (RvTuple r 200), w)).
Proof.
  split.
  - exists (resolved_version w). split; [apply getenv_str|].
    split; [apply hello_run|].
    apply dumps_string_not_null.
  - eexists. apply health_run.
Qed.

(** C9: both routes accept GET, to which the framework adds HEAD and
    OPTIONS, and nothing else: a request for [/] or [/health] with any
    other method, POST for one, is answered with status 405, neither 404
    nor a 2xx status, and changes nothing. *)
Theorem other_method_405 (w : World) (m path : pystr) :
  path = lit "/" ∨ path = lit "/health" →
  Str.upper m ∉ route_methods →
  Forall (fun r => Flask.methods r = route_methods) (Flask.url_map app)
  ∧ status_of (Flask.wsgi_app app (mkRequest m path) w) = 405%Z
  ∧ snd (Flask.wsgi_app app (mkRequest m path) w) = w.
Proof.
  intros Hpath Hm. split.
  - rewrite app_url_map. repeat constructor.
  - destruct Hpath as [-> | ->].
    + destruct (match_wrong_method_root m w Hm) as [ms Hms].
      rewrite (wsgi_of_raise _ _ _ _ Hms). split; reflexivity.
    + destruct (match_wrong_method_health m w Hm) as [ms Hms].
      rewrite (wsgi_of_raise _ _ _ _ Hms). split; reflexivity.
Qed.

Lemma other_method_405_witness :
  let w := mkWorld ∅ [] in
  (lit "/" = lit "/" ∨ lit "/" = lit "/health")
  ∧ (Str.upper (lit "POST") ∉ route_methods)
  ∧ Forall (fun r => Flask.methods r = route_methods) (Flask.url_map app)
  ∧ status_of (Flask.wsgi_app app (mkRequest (lit "POST") (lit "/")) w) = 405%Z
  ∧ snd (Flask.wsgi_app app (mkRequest (lit "POST") (lit "/")) w) = w.
Proof.
  intros w.
  assert (Hm : Str.upper (lit "POST") ∉ route_methods).
  { apply (bool_decide_unpack (Str.upper (lit "POST") ∉ route_methods)).
    vm_compute. exact I. }
  split; [left; reflexivity|].
  split; [exact Hm|].
  apply (other_method_405 w (lit "POST") (lit "/")); [left; reflexivity|exact Hm].
Defined.

(** * Further properties *)

(** ** The tests pass in every environment *)

Lemma startswith_app (p s : pystr) : Bytes.startswith p (p ++ s) = true.
Proof.
  induction p as [|x p IH]; [reflexivity|].
  cbn. rewrite N.eqb_refl. exact IH.
Qed.

Lemma contains_app (needle a b : pystr) :
  Bytes.contains needle (a ++ needle ++ b) = true.
Proof.
  induction a as [|x a IH].
  - change (Bytes.contains needle (needle ++ b) = true).
    assert (H : Bytes.startswith needle (needle ++ b) = true)
      by apply startswith_app.
    destruct (needle ++ b); cbn [Bytes.contains]; rewrite H; reflexivity.
  - change (Bytes.contains needle (x :: (a ++ needle ++ b)) = true).
    cbn [Bytes.contains]. rewrite IH. apply orb_true_r.
Qed.

Lemma hello_body_split (v : pystr) :
  hello_body v
  = ([123; 34] ++ lit "message" ++ [34; 58; 34])
    ++ lit "Hello from my app!"
    ++ ([34; 44; 34] ++ lit "version" ++ [34; 58]
        ++ Json.encode_basestring_ascii v ++ [125; 10]).
Proof.
  unfold hello_body, hello_prefix. rewrite <- !app_assoc. reflexivity.
Qed.

(** X1: [test_hello] passes whatever the environment holds: the answer
    to GET [/] has status 200 and the greeting occurs in its body for
    every value of [APP_VERSION], set or not. *)
Theorem test_hello_passes (w : World) : test_hello w = Passed.
Proof.
  unfold test_hello, client_get.
  rewrite wsgi_get_root, dumps_hello. cbn [fst snd status_code data].
  rewrite hello_body_split, contains_app. reflexivity.
Qed.

(** X2: [test_health] passes in every world: the answer to GET
    [/health] has status 200 and the word [healthy] occurs in its
    body. *)
Theorem test_health_passes (w : World) : test_health w = Passed.
Proof.
  unfold test_health, client_get.
  rewrite wsgi_get_health. reflexivity.
Qed.

(** ** Every request *)

Lemma wsgi_routed_root (m p : pystr) (w : World) :
  Flask.path_part p = lit "/" →
  Str.upper m ∈ route_methods →
  Flask.wsgi_app app (mkRequest m p) w =
  (Ok (Served (Flask.finalize (mkRequest m p)
                 (if bool_decide (Str.upper m = lit "OPTIONS")
                  then Flask.make_default_options_response
                  else mkResponse 200 (lit "application/json")
                         (hello_body (resolved_version w))))), w).
Proof.
  intros Hp Hm.
  unfold Flask.wsgi_app, Flask.dispatch_request, catch, mbind, M_bind, bind.
  rewrite match_request_app by (cbn [path_info]; by rewrite Hp).
  cbn [path_info request_method].
  rewrite decide_True by exact Hp.
  rewrite bool_decide_eq_true_2 by exact Hm.
  destruct (bool_decide (Str.upper m = lit "OPTIONS")); [reflexivity|].
  change (Flask.endpoint root_rule) with (lit "hello").
  rewrite app_view_hello, hello_run, dumps_hello. reflexivity.
Qed.

Lemma wsgi_routed_health (m p : pystr) (w : World) :
  Flask.path_part p = lit "/health" →
  Str.upper m ∈ route_methods →
  Flask.wsgi_app app (mkRequest m p) w =
  (Ok (Served (Flask.finalize (mkRequest m p)
                 (if bool_decide (Str.upper m = lit "OPTIONS")
                  then Flask.make_default_options_response
                  else mkResponse 200 (lit "application/json") health_body))),
   w).
Proof.
  intros Hp Hm.
  unfold Flask.wsgi_app, Flask.dispatch_request, catch, mbind, M_bind, bind.
  rewrite match_request_app by (cbn [path_info]; by rewrite Hp).
  cbn [path_info request_method].
  rewrite decide_False by (rewrite Hp; discriminate).
  rewrite decide_True by exact Hp.
  rewrite bool_decide_eq_true_2 by exact Hm.
  destruct (bool_decide (Str.upper m = lit "OPTIONS")); [reflexivity|].
  change (Flask.endpoint health_rule) with (lit "health").
  rewrite app_view_health, health_run, dumps_health. reflexivity.
Qed.

Lemma finalize_status (req : Request) (r : Response) :
  status_code (Flask.finalize req r) = status_code r.
Proof. unfold Flask.finalize. by destruct (bool_decide _). Qed.

Lemma routed_status (m : pystr) (r : Response) :
  status_code r = 200%Z →
  status_code (if bool_decide (Str.upper m = lit "OPTIONS")
               then Flask.make_default_options_response else r) = 200%Z.
Proof. intros H. by destruct (bool_decide _). Qed.

Lemma wsgi_unrouted (m p : pystr) (w : World) :
  under_static (Flask.path_part p) = false →
  ¬ ((Flask.path_part p = lit "/" ∨ Flask.path_part p = lit "/health")
     ∧ Str.upper m ∈ route_methods) →
  ∃ e, Flask.wsgi_app app (mkRequest m p) w = (Ok (Aborted e), w).
Proof.
  intros Hs Hn.
  assert (Hx : ∃ e, Flask.match_request (Flask.url_map app) (mkRequest m p) w
                    = (Raise e, w)).
  { rewrite match_request_app by exact Hs. cbn [path_info request_method].
    destruct (decide (Flask.path_part p = lit "/")) as [Hr|Hr].
    { rewrite bool_decide_eq_false_2 by (intros Hm; apply Hn; auto).
      by eexists. }
    destruct (decide (Flask.path_part p = lit "/health")) as [Hh|Hh].
    { rewrite bool_decide_eq_false_2 by (intros Hm; apply Hn; auto).
      by eexists. }
    destruct (decide (p = [])); [|by eexists].
    destruct (bool_decide (Str.upper m ∈ route_methods)); by eexists. }
  destruct Hx as [e He]. exists e. by apply wsgi_of_raise.
Qed.

(** X3: for every request whose method and path are WSGI strings and
    whose path is not under [/static/], and in every world, the
    application answers and leaves the world as it was; no exception
    escapes, the status is one of 200, 308, 404 and 405, and it is 200
    exactly when the path, with its leading slashes reduced to one, is
    [/] or [/health] and the method, in upper case, is GET, HEAD or
    OPTIONS. *)
Theorem every_request_answered (req : Request) (w : World) :
  wsgi_string (request_method req) →
  wsgi_string (path_info req) →
  under_static (Flask.path_part (path_info req)) = false →
  (∃ r : Reply, Flask.wsgi_app app req w = (Ok r, w))
  ∧ (status_of (Flask.wsgi_app app req w) = 200%Z
     ∨ status_of (Flask.wsgi_app app req w) = 308%Z
     ∨ status_of (Flask.wsgi_app app req w) = 404%Z
     ∨ status_of (Flask.wsgi_app app req w) = 405%Z)
  ∧ (status_of (Flask.wsgi_app app req w) = 200%Z
     ↔ (Flask.path_part (path_info req) = lit "/"
        ∨ Flask.path_part (path_info req) = lit "/health")
       ∧ Str.upper (request_method req) ∈ route_methods).
Proof.
  destruct req as [m p]. cbn [path_info request_method]. intros _ _ Hs.
  destruct (decide ((Flask.path_part p = lit "/"
                     ∨ Flask.path_part p = lit "/health")
                    ∧ Str.upper m ∈ route_methods)) as [[Hp Hm]|Hn].
  - assert (Hx : ∃ r, status_code r = 200%Z
                      ∧ Flask.wsgi_app app (mkRequest m p) w
                        = (Ok (Served r), w)).
    { destruct Hp as [Hp|Hp].
      - eexists. split; [|apply (wsgi_routed_root m p w Hp Hm)].
        by rewrite finalize_status, routed_status.
      - eexists. split; [|apply (wsgi_routed_health m p w Hp Hm)].
        by rewrite finalize_status, routed_status. }
    destruct Hx as (r & Hr & ->).
    unfold status_of. cbn [fst reply_status]. rewrite Hr.
    split; [by eexists|]. split; [by left|]. done.
  - destruct (wsgi_unrouted m p w Hs Hn) as [e ->].
    unfold status_of. cbn [fst].
    split; [by eexists|].
    destruct e; cbn [reply_status];
      (split; [auto|]); (split; [discriminate|done]).
Qed.

Lemma every_request_answered_witness :
  let req := mkRequest (lit "DELETE") (lit "/health") in
  let w := mkWorld {[lit "APP_VERSION" := lit "1.2.3"]} [] in
  wsgi_string (request_method req)
  ∧ wsgi_string (path_info req)
  ∧ under_static (Flask.path_part (path_info req)) = false
  ∧ (∃ r : Reply, Flask.wsgi_app app req w = (Ok r, w))
  ∧ status_of (Flask.wsgi_app app req w) = 405%Z.
Proof.
  intros req w.
  assert (H1 : wsgi_string (request_method req))
    by (apply (bool_decide_unpack _); vm_compute; exact I).
  assert (H2 : wsgi_string (path_info req))
    by (apply (bool_decide_unpack _); vm_compute; exact I).
  assert (H3 : under_static (Flask.path_part (path_info req)) = false)
    by reflexivity.
  split; [exact H1|]. split; [exact H2|]. split; [exact H3|].
  split; [exact (proj1 (every_request_answered req w H1 H2 H3))|].
  vm_compute. reflexivity.
Defined.

(** ** Requests that are served like GET *)

(** X4: a request whose method reads HEAD in upper case, for a path that
    is [/] or [/health] once its leading slashes are reduced to one, is
    answered like a GET, with status 200 and type [application/json];
    the body is dropped only when the method is spelled [HEAD] in these
    very letters, and a spelling such as [head] keeps the whole body. *)
Theorem head_request_body (m p : pystr) (w : World) :
  Str.upper m = lit "HEAD" →
  (Flask.path_part p = lit "/" →
   Flask.wsgi_app app (mkRequest m p) w
   = (Ok (Served (mkResponse 200 (lit "application/json")
                    (if bool_decide (m = lit "HEAD") then []
                     else hello_body (resolved_version w)))), w))
  ∧ (Flask.path_part p = lit "/health" →
     Flask.wsgi_app app (mkRequest m p) w
     = (Ok (Served (mkResponse 200 (lit "application/json")
                      (if bool_decide (m = lit "HEAD") then []
                       else health_body))), w)).
Proof.
  intros Hm.
  assert (Hin : Str.upper m ∈ route_methods).
  { rewrite Hm. apply (bool_decide_unpack _). vm_compute. exact I. }
  split; intros Hp.
  - rewrite (wsgi_routed_root m p w Hp Hin).
    unfold Flask.finalize. cbn [request_method]. rewrite Hm.
    replace (bool_decide (lit "HEAD" = lit "OPTIONS")) with false
      by reflexivity.
    by destruct (bool_decide (m = lit "HEAD")).
  - rewrite (wsgi_routed_health m p w Hp Hin).
    unfold Flask.finalize. cbn [request_method]. rewrite Hm.
    replace (bool_decide (lit "HEAD" = lit "OPTIONS")) with false
      by reflexivity.
    by destruct (bool_decide (m = lit "HEAD")).
Qed.

Lemma head_request_body_witness :
  let w := mkWorld {[lit "APP_VERSION" := lit "1.2.3"]} [] in
  Str.upper (lit "head") = lit "HEAD"
  ∧ Flask.path_part (lit "/") = lit "/"
  ∧ Flask.wsgi_app app (mkRequest (lit "head") (lit "/")) w
    = (Ok (Served (mkResponse 200 (lit "application/json")
                     (hello_body (lit "1.2.3")))), w)
  ∧ Flask.wsgi_app app (mkRequest (lit "HEAD") (lit "/")) w
    = (Ok (Served (mkResponse 200 (lit "application/json") [])), w).
Proof.
  intros w.
  split; [reflexivity|]. split; [reflexivity|]. split.
  - exact (proj1 (head_request_body (lit "head") (lit "/") w eq_refl) eq_refl).
  - exact (proj1 (head_request_body (lit "HEAD") (lit "/") w eq_refl) eq_refl).
Defined.

Lemma lstrip_slash_replicate (k : nat) (p : pystr) :
  Str.lstrip_slash (replicate k 47 ++ p) = Str.lstrip_slash p.
Proof. induction k as [|k IH]; [reflexivity|exact IH]. Qed.

Lemma path_part_replicate (k : nat) (p : pystr) :
  p ≠ [] → Flask.path_part (replicate k 47 ++ p) = Flask.path_part p.
Proof.
  intros Hp. rewrite !path_part_cons.
  - by rewrite lstrip_slash_replicate.
  - exact Hp.
  - destruct k; [exact Hp|discriminate].
Qed.

Lemma wsgi_app_path_part (a : Flask.App) (m p p' : pystr) (w : World) :
  Flask.path_part p = Flask.path_part p' →
  Flask.wsgi_app a (mkRequest m p) w = Flask.wsgi_app a (mkRequest m p') w.
Proof.
  intros H.
  unfold Flask.wsgi_app, Flask.dispatch_request, Flask.match_request,
    Flask.finalize.
  cbn [path_info request_method]. rewrite H. reflexivity.
Qed.

(** X5: slashes put in front of a non-empty path change nothing: the
    request for the longer path gets the reply, world included, of the
    request for the path itself, whatever the method. So [//health] and
    [///health] are served as [/health] is. *)
Theorem leading_slashes_ignored (k : nat) (m p : pystr) (w : World) :
  p ≠ [] →
  Flask.wsgi_app app (mkRequest m (replicate k 47 ++ p)) w
  = Flask.wsgi_app app (mkRequest m p) w.
Proof.
  intros Hp. apply wsgi_app_path_part. by apply path_part_replicate.
Qed.

Lemma leading_slashes_ignored_witness :
  let w := mkWorld ∅ [] in
  lit "/health" ≠ []
  ∧ Flask.wsgi_app app (mkRequest (lit "GET") (replicate 2 47 ++ lit "/health")) w
    = Flask.wsgi_app app (mkRequest (lit "GET") (lit "/health")) w.
Proof.
  intros w. split; [discriminate|].
  apply (leading_slashes_ignored 2 (lit "GET") (lit "/health") w).
  discriminate.
Defined.

(** ** The body of the greeting *)

Lemma hex_digit_printable (d : N) : d < 16 → printable (Json.hex_digit d).
Proof.
  intros Hd. unfold Json.hex_digit, printable.
  destruct (N.ltb_spec d 10); lia.
Qed.

Lemma u_escape_printable (n : N) : Forall printable (Json.u_escape n).
Proof.
  unfold Json.u_escape.
  repeat constructor;
    try (apply hex_digit_printable; apply N.mod_lt; discriminate);
    try discriminate.
Qed.

Lemma escape_char_printable (c : N) : Forall printable (Json.escape_char c).
Proof.
  unfold Json.escape_char.
  repeat case_match;
    try (apply Forall_app; split; apply u_escape_printable);
    try apply u_escape_printable;
    try (repeat constructor; discriminate).
  match goal with
  | H : _ && _ = true |- _ =>
      apply andb_true_iff in H as [?%N.leb_le ?%N.leb_le]
  end.
  repeat constructor; assumption.
Qed.

Lemma encode_basestring_ascii_printable (s : pystr) :
  Forall printable (Json.encode_basestring_ascii s).
Proof.
  unfold Json.encode_basestring_ascii.
  apply Forall_app. split; [repeat constructor; discriminate|].
  apply Forall_app. split; [|repeat constructor; discriminate].
  induction s as [|c s IH]; [constructor|].
  change (Forall printable (Json.escape_char c ++ flat_map Json.escape_char s)).
  apply Forall_app. split; [apply escape_char_printable|exact IH].
Qed.

Lemma hello_prefix_printable : Forall printable hello_prefix.
Proof. apply (bool_decide_unpack _). vm_compute. exact I. Qed.

(** A text given by its characters is checked by evaluation. *)
Ltac closed_text := apply (bool_decide_unpack _); vm_compute; exact I.

Lemma printable_ascii_text (l : pystr) :
  Forall printable l → Forall ascii_text l.
Proof. intros H. apply (Forall_impl _ _ _ H). intros c Hc. by left. Qed.

Lemma dumps_indent_hello (val : pyval) :
  Json.dumps_indent (hello_dict val)
  = [123; 10; 32; 32]
    ++ (Json.encode_basestring_ascii (lit "message") ++ [58; 32]
        ++ Json.encode_basestring_ascii (lit "Hello from my app!"))
    ++ [44; 10; 32; 32]
    ++ (Json.encode_basestring_ascii (lit "version") ++ [58; 32]
        ++ Json.encode_value val)
    ++ [10; 125].
Proof.
  unfold Json.dumps_indent. rewrite sorted_hello_dict.
  unfold hello_dict.
  cbn [map Json.join_lines Json.encode_item_indent Json.encode_value fst snd].
  rewrite <- !app_assoc. reflexivity.
Qed.

(** X6: whatever [APP_VERSION] holds, control characters, quotes and
    characters outside ASCII included, the body sent for GET [/] is an
    ASCII text: every character is printable, space to tilde, or a
    newline. The same holds of the indented body that [jsonify] sends
    for the same dictionary when the application runs in debug mode. *)
Theorem greeting_is_ascii_text (w : World) :
  (∃ body : pystr,
      body_of (Flask.wsgi_app app (GET (lit "/")) w) = Some body
      ∧ Forall ascii_text body)
  ∧ Forall ascii_text
      (Json.dumps_indent (hello_dict (PyStr (resolved_version w))) ++ [10]).
Proof.
  split.
  - exists (hello_body (resolved_version w)). split.
    + rewrite wsgi_get_root, dumps_hello. reflexivity.
    + unfold hello_body.
      apply Forall_app. split;
        [apply printable_ascii_text, hello_prefix_printable|].
      apply Forall_app. split;
        [apply printable_ascii_text, encode_basestring_ascii_printable|].
      closed_text.
  - rewrite dumps_indent_hello. cbn [Json.encode_value].
    apply Forall_app. split; [|closed_text].
    apply Forall_app. split; [closed_text|].
    apply Forall_app. split.
    { apply Forall_app. split;
        [apply printable_ascii_text, encode_basestring_ascii_printable|].
      apply Forall_app. split; [closed_text|].
      apply printable_ascii_text, encode_basestring_ascii_printable. }
    apply Forall_app. split; [closed_text|].
    apply Forall_app. split; [|closed_text].
    apply Forall_app. split;
      [apply printable_ascii_text, encode_basestring_ascii_printable|].
    apply Forall_app. split; [closed_text|].
    apply printable_ascii_text, encode_basestring_ascii_printable.
Qed.

(** ** The body determines the version *)

Lemma unhex_hex_digit (d : N) :
  d < 16 → Unescape.unhex (Json.hex_digit d) = d.
Proof.
  intros Hd. unfold Unescape.unhex, Json.hex_digit.
  destruct (N.ltb_spec d 10).
  - destruct (N.ltb_spec (48 + d) 58); lia.
  - destruct (N.ltb_spec (87 + d) 58); lia.
Qed.

Lemma four_digits (n : N) :
  n < 65536 →
  4096 * (n / 4096 mod 16) + 256 * (n / 256 mod 16)
  + 16 * (n / 16 mod 16) + n mod 16 = n.
Proof. intros H. zify. Z.to_euclidean_division_equations. lia. Qed.

Lemma read4_u_escape (n : N) :
  n < 65536 →
  Unescape.read4 (Json.hex_digit (n / 4096 mod 16))
    (Json.hex_digit (n / 256 mod 16)) (Json.hex_digit (n / 16 mod 16))
    (Json.hex_digit (n mod 16)) = n.
Proof.
  intros H. unfold Unescape.read4.
  rewrite !unhex_hex_digit by (apply N.mod_lt; discriminate).
  by apply four_digits.
Qed.

Lemma head_u (a b c d : N) (r : pystr) :
  Unescape.head (92 :: 117 :: a :: b :: c :: d :: r)
  = if (55296 <=? Unescape.read4 a b c d) && (Unescape.read4 a b c d <=? 56319)
    then match r with
         | _ :: _ :: a' :: b' :: c' :: d' :: r3 =>
             Some (65536 + (Unescape.read4 a b c d - 55296) * 1024
                   + (Unescape.read4 a' b' c' d' - 56320), r3)
         | _ => None
         end
    else Some (Unescape.read4 a b c d, r).
Proof. reflexivity. Qed.

Lemma u_escape_cons (n : N) (r : pystr) :
  Json.u_escape n ++ r
  = 92 :: 117 :: Json.hex_digit (n / 4096 mod 16)
    :: Json.hex_digit (n / 256 mod 16) :: Json.hex_digit (n / 16 mod 16)
    :: Json.hex_digit (n mod 16) :: r.
Proof. reflexivity. Qed.

Lemma head_u_escape (n : N) (r : pystr) :
  n < 65536 → ¬ (55296 ≤ n ∧ n ≤ 56319) →
  Unescape.head (Json.u_escape n ++ r) = Some (n, r).
Proof.
  intros Hn Hs. rewrite u_escape_cons, head_u, read4_u_escape by exact Hn.
  destruct (N.leb_spec 55296 n); [|reflexivity].
  destruct (N.leb_spec n 56319); [|reflexivity].
  exfalso. apply Hs. by split.
Qed.

Lemma lor_high (x : N) : x < 1024 → N.lor 55296 x = 55296 + x.
Proof.
  intros Hx.
  assert (Hl : N.land 55296 x = 0).
  { replace x with (N.land x (N.ones 10)).
    - rewrite (N.land_comm x), N.land_assoc. reflexivity.
    - rewrite N.land_ones. apply N.mod_small. exact Hx. }
  rewrite <- (N.lxor_lor _ _ Hl). symmetry. by apply N.add_nocarry_lxor.
Qed.

Lemma lor_low (x : N) : x < 1024 → N.lor 56320 x = 56320 + x.
Proof.
  intros Hx.
  assert (Hl : N.land 56320 x = 0).
  { replace x with (N.land x (N.ones 10)).
    - rewrite (N.land_comm x), N.land_assoc. reflexivity.
    - rewrite N.land_ones. apply N.mod_small. exact Hx. }
  rewrite <- (N.lxor_lor _ _ Hl). symmetry. by apply N.add_nocarry_lxor.
Qed.

Lemma surrogates (n : N) :
  n < 1048576 →
  N.lor 55296 (N.land (N.shiftr n 10) 1023) = 55296 + n / 1024
  ∧ N.lor 56320 (N.land n 1023) = 56320 + n mod 1024.
Proof.
  intros Hn.
  change 1023 with (N.ones 10).
  rewrite !N.land_ones, N.shiftr_div_pow2.
  change (2 ^ 10) with 1024.
  assert (n / 1024 < 1024) by (zify; Z.to_euclidean_division_equations; lia).
  rewrite (N.mod_small (n / 1024)) by assumption.
  split; apply lor_high || apply lor_low;
    [assumption|apply N.mod_lt; discriminate].
Qed.

Lemma head_escape_char (c : N) (r : pystr) :
  env_char c → Unescape.head (Json.escape_char c ++ r) = Some (c, r).
Proof.
  intros [Hc Hs]. unfold Json.escape_char.
  destruct (N.eqb_spec c 34) as [->|H34]; [reflexivity|].
  destruct (N.eqb_spec c 92) as [->|H92]; [reflexivity|].
  destruct (N.eqb_spec c 8) as [->|?]; [reflexivity|].
  destruct (N.eqb_spec c 12) as [->|?]; [reflexivity|].
  destruct (N.eqb_spec c 10) as [->|?]; [reflexivity|].
  destruct (N.eqb_spec c 13) as [->|?]; [reflexivity|].
  destruct (N.eqb_spec c 9) as [->|?]; [reflexivity|].
  destruct ((32 <=? c) && (c <=? 126)).
  - change (Unescape.head (c :: r) = Some (c, r)).
    unfold Unescape.head.
    rewrite (proj2 (N.eqb_neq c 34)) by exact H34.
    rewrite (proj2 (N.eqb_neq c 92)) by exact H92.
    reflexivity.
  - destruct (N.ltb_spec c 65536) as [Hlt|Hge].
    + by apply head_u_escape.
    + cbv zeta.
      destruct (surrogates (c - 65536)) as [-> ->]; [lia|].
      rewrite <- app_assoc, u_escape_cons, head_u.
      rewrite read4_u_escape
        by (zify; Z.to_euclidean_division_equations; lia).
      rewrite (proj2 (N.leb_le 55296 _)) by apply N.le_add_r.
      rewrite (proj2 (N.leb_le _ 56319))
        by (zify; Z.to_euclidean_division_equations; lia).
      cbn [andb]. rewrite u_escape_cons.
      rewrite read4_u_escape
        by (assert (H := N.mod_lt (c - 65536) 1024); lia).
      f_equal. f_equal.
      zify; Z.to_euclidean_division_equations; lia.
Qed.

Lemma escaped_cons (c : N) (s t : pystr) :
  flat_map Json.escape_char (c :: s) ++ t
  = Json.escape_char c ++ (flat_map Json.escape_char s ++ t).
Proof. simpl. by rewrite <- app_assoc. Qed.

Lemma escaped_text_inj (s1 s2 t1 t2 : pystr) :
  Forall env_char s1 → Forall env_char s2 →
  flat_map Json.escape_char s1 ++ 34 :: t1
  = flat_map Json.escape_char s2 ++ 34 :: t2 →
  s1 = s2.
Proof.
  intros H1. revert s2.
  induction H1 as [|c1 s1 Hc1 _ IH]; intros s2 H2 Heq.
  - destruct H2 as [|c2 s2 Hc2 _]; [reflexivity|].
    rewrite escaped_cons in Heq.
    apply (f_equal Unescape.head) in Heq.
    rewrite head_escape_char in Heq by exact Hc2.
    discriminate Heq.
  - destruct H2 as [|c2 s2 Hc2 H2].
    + rewrite escaped_cons in Heq.
      apply (f_equal Unescape.head) in Heq.
      rewrite head_escape_char in Heq by exact Hc1.
      discriminate Heq.
    + rewrite !escaped_cons in Heq.
      apply (f_equal Unescape.head) in Heq.
      rewrite !head_escape_char in Heq by assumption.
      injection Heq as -> Heq.
      f_equal. by apply IH.
Qed.

Lemma encode_basestring_ascii_inj (s1 s2 : pystr) :
  Forall env_char s1 → Forall env_char s2 →
  Json.encode_basestring_ascii s1 = Json.encode_basestring_ascii s2 →
  s1 = s2.
Proof.
  intros H1 H2 Heq. unfold Json.encode_basestring_ascii in Heq.
  injection Heq as Heq.
  by apply (escaped_text_inj s1 s2 [] []).
Qed.

(** X7: the body of the greeting determines the version. When the
    versions two worlds resolve hold only code points of decoded
    environment values (inside the Unicode range, no high surrogate),
    equal bodies for GET [/] mean equal versions: no two such values of
    [APP_VERSION] are reported alike, and none is reported like the
    default unless it is ["unknown"] itself. *)
Theorem body_determines_version (w1 w2 : World) :
  Forall env_char (resolved_version w1) →
  Forall env_char (resolved_version w2) →
  body_of (Flask.wsgi_app app (GET (lit "/")) w1)
  = body_of (Flask.wsgi_app app (GET (lit "/")) w2) →
  resolved_version w1 = resolved_version w2.
Proof.
  intros H1 H2 Heq.
  rewrite !wsgi_get_root, !dumps_hello in Heq.
  unfold body_of in Heq. cbn [fst data] in Heq.
  assert (Hb : hello_body (resolved_version w1)
               = hello_body (resolved_version w2)) by congruence.
  unfold hello_body in Hb.
  apply app_inv_head, app_inv_tail in Hb.
  by apply encode_basestring_ascii_inj.
Qed.

Lemma body_determines_version_witness :
  let w1 := mkWorld {[lit "APP_VERSION" := lit "unknown"]} [] in
  let w2 := mkWorld ∅ [lit "started"] in
  Forall env_char (resolved_version w1)
  ∧ Forall env_char (resolved_version w2)
  ∧ body_of (Flask.wsgi_app app (GET (lit "/")) w1)
    = body_of (Flask.wsgi_app app (GET (lit "/")) w2)
  ∧ resolved_version w1 = resolved_version w2.
Proof.
  intros w1 w2.
  assert (H1 : Forall env_char (resolved_version w1))
    by (apply (bool_decide_unpack _); vm_compute; exact I).
  assert (H2 : Forall env_char (resolved_version w2))
    by (apply (bool_decide_unpack _); vm_compute; exact I).
  assert (Hb : body_of (Flask.wsgi_app app (GET (lit "/")) w1)
               = body_of (Flask.wsgi_app app (GET (lit "/")) w2))
    by (vm_compute; reflexivity).
  split; [exact H1|]. split; [exact H2|]. split; [exact Hb|].
  exact (body_determines_version w1 w2 H1 H2 Hb).
Defined.

(** The hypothesis on high surrogates is needed: a high and a low
    surrogate written as two characters are escaped like the one
    character they stand for together. *)
Remark surrogate_pair_collides :
  Json.encode_basestring_ascii [55357; 56832]
  = Json.encode_basestring_ascii [128512].
Proof. reflexivity. Qed.
